(** * moto/comprehend/models.py: the entity-recognizer backend

    A shallow embedding of [EntityRecognizer] and [ComprehendBackend] and the
    properties of the create / describe / list / stop-training / delete / tag
    operations.

    Modelling choices:
    - a Python [str] is a [string]; its truthiness is "not the empty string";
    - the [recognizers] dict is a [gmap string EntityRecognizer].  Every
      [create_entity_recognizer] call builds a fresh object, so no two keys
      ever share an object and the dict can hold the records by value; the
      assignment [recognizer.status = ...] in [stop_training_entity_recognizer]
      mutates the object stored under the looked-up key, i.e. it rewrites that
      entry.  The iteration order of the dict is not modelled: [values] lists
      the entries in the order of the finite map;
    - a method of the backend is a computation in a state-and-exception monad:
      it takes the backend and gives back an outcome (a value or a raised
      exception) together with the backend as the call left it. *)

From stdpp Require Import gmap strings list fin_maps.

(** ** Python values that travel through the backend untouched *)

(** JSON-like payloads ([Dict[str, Any]]). *)
#[local] Set Warnings "-register-all".
Inductive pyval : Type :=
  | PyNone
  | PyBool (b : bool)
  | PyInt (z : Z)
  | PyStr (s : string)
  | PyList (l : list pyval)
  | PyDict (d : list (string * pyval)).
#[local] Set Warnings "register-all".

(** [s == v] for a [str] on the left: only an equal [str] compares equal. *)
Definition str_eq_pyval (s : string) (v : pyval) : bool :=
  match v with
  | PyStr s' => bool_decide (s = s')
  | _ => false
  end.

(** Truthiness of a [str]. *)
Definition str_truthy (s : string) : bool :=
  match s with
  | EmptyString => false
  | String _ _ => true
  end.

(** ** The tagging collaborator *)

Module TaggingService.

(** Modelled from the spec: one element of the tag lists the tagging
    collaborator takes and returns, a "tag key/value pair"
    [{"Key": k, "Value": v}]. *)
Record Tag : Type := mkTag { Key : string; Value : string }.

(** Modelled from the spec: the class [TaggingService] of
    [moto/utilities/tagging_service.py] is not part of the sources at hand.
    The spec describes it as a component "managing arbitrary key/value tag
    sets attached to resource identifiers", with the three operations
    [tag_resource(arn, tags)], [untag_resource_using_names(arn, tag_keys)]
    and [list_tags_for_resource(arn) -> {Tags: [...]}].  The state is, per
    resource identifier, the tag set of that resource: a list of tags with
    one tag per key, in the order the keys were first attached. *)
Record t : Type := mk { tags : gmap string (list Tag) }.

(** Modelled from the spec: a new tagging service holds no tags. *)
Definition init : t := mk ∅.

(** Modelled from the spec: attaching one tag to a tag set (part of the
    missing [tag_resource]).  The value of a key already present is replaced
    in place, a new key goes to the end. *)
Fixpoint put_tag (tg : Tag) (l : list Tag) : list Tag :=
  match l with
  | [] => [tg]
  | x :: l' => if decide (Key x = Key tg) then tg :: l' else x :: put_tag tg l'
  end.

(** Modelled from the spec: dropping one key from a tag set (part of the
    missing [untag_resource_using_names]). *)
Definition drop_key (k : string) (l : list Tag) : list Tag :=
  filter (λ x, Key x ≠ k) l.

(** Modelled from the spec: [list_tags_for_resource(arn)["Tags"]], the tag
    list of the resource; a resource nothing was attached to has none. *)
Definition list_tags_for_resource (arn : string) (s : t) : list Tag :=
  default [] (tags s !! arn).

(** Modelled from the spec: [tag_resource(arn, tags)] attaches the given
    tags, one after the other, to the tag set of [arn]. *)
Definition tag_resource (arn : string) (tgs : list Tag) (s : t) : t :=
  mk (<[arn := foldl (λ l tg, put_tag tg l) (list_tags_for_resource arn s) tgs]>
        (tags s)).

(** Modelled from the spec: [untag_resource_using_names(arn, tag_keys)]
    removes the named keys, one after the other, from the tag set of [arn];
    on a resource without tags it does nothing. *)
Definition untag_resource_using_names (arn : string) (names : list string)
    (s : t) : t :=
  mk (alter (λ l, foldl (λ l k, drop_key k l) l names) arn (tags s)).

End TaggingService.

Abbreviation Tag := TaggingService.Tag.

(** ** [class EntityRecognizer] *)

Record EntityRecognizer : Type := mkEntityRecognizer {
  name : string;
  arn : string;
  language_code : string;
  input_data_config : pyval;
  data_access_role_arn : string;
  version_name : string;
  volume_kms_key_id : string;
  vpc_config : gmap string (list string);
  model_kms_key_id : string;
  model_policy : string;
  status : string
}.

(** [EntityRecognizer.__init__], the parameters in the order of the source. *)
Definition EntityRecognizer_init
    (region_name account_id language_code : string)
    (input_data_config : pyval)
    (data_access_role_arn version_name recognizer_name volume_kms_key_id : string)
    (vpc_config : gmap string (list string))
    (model_kms_key_id model_policy : string) : EntityRecognizer :=
  let arn0 :=
    "arn:aws:comprehend:" +:+ region_name +:+ ":" +:+ account_id
      +:+ ":entity-recognizer/" +:+ recognizer_name in
  let arn1 :=
    if str_truthy version_name then arn0 +:+ ("/version/" +:+ version_name)
    else arn0 in
  {| name := recognizer_name;
     arn := arn1;
     language_code := language_code;
     input_data_config := input_data_config;
     data_access_role_arn := data_access_role_arn;
     version_name := version_name;
     volume_kms_key_id := volume_kms_key_id;
     vpc_config := vpc_config;
     model_kms_key_id := model_kms_key_id;
     model_policy := model_policy;
     status := "TRAINED" |}.

(** The assignment [self.status = s] on a recognizer. *)
Definition set_status (s : string) (r : EntityRecognizer) : EntityRecognizer :=
  {| name := name r;
     arn := arn r;
     language_code := language_code r;
     input_data_config := input_data_config r;
     data_access_role_arn := data_access_role_arn r;
     version_name := version_name r;
     volume_kms_key_id := volume_kms_key_id r;
     vpc_config := vpc_config r;
     model_kms_key_id := model_kms_key_id r;
     model_policy := model_policy r;
     status := s |}.

(** What the values of the dict built by [to_dict] are: a [str], the input
    data configuration or the VPC configuration. *)
Inductive any : Type :=
  | AnyStr (s : string)
  | AnyData (d : pyval)
  | AnyVpc (v : gmap string (list string)).

(** [EntityRecognizer.to_dict]. *)
Definition to_dict (self : EntityRecognizer) : gmap string any :=
  {[ "EntityRecognizerArn" := AnyStr (arn self);
     "LanguageCode" := AnyStr (language_code self);
     "Status" := AnyStr (status self);
     "InputDataConfig" := AnyData (input_data_config self);
     "DataAccessRoleArn" := AnyStr (data_access_role_arn self);
     "VersionName" := AnyStr (version_name self);
     "VolumeKmsKeyId" := AnyStr (volume_kms_key_id self);
     "VpcConfig" := AnyVpc (vpc_config self);
     "ModelKmsKeyId" := AnyStr (model_kms_key_id self);
     "ModelPolicy" := AnyStr (model_policy self) ]}.

(** ** [class ComprehendBackend] *)

Record ComprehendBackend : Type := mkComprehendBackend {
  region_name : string;
  account_id : string;
  recognizers : gmap string EntityRecognizer;
  tagger : TaggingService.t
}.

(** [ComprehendBackend.__init__]. *)
Definition ComprehendBackend_init (region_name account_id : string)
    : ComprehendBackend :=
  {| region_name := region_name;
     account_id := account_id;
     recognizers := ∅;
     tagger := TaggingService.init |}.

(** *** Outcomes and the monad of backend methods *)

Inductive exn : Type := ResourceNotFound.

Inductive outcome (A : Type) : Type :=
  | Returned (a : A)
  | Raised (e : exn).
Arguments Returned {A} a.
Arguments Raised {A} e.

Definition M (A : Type) : Type :=
  ComprehendBackend → outcome A * ComprehendBackend.

Definition ret {A} (a : A) : M A := λ self, (Returned a, self).

Definition raise {A} (e : exn) : M A := λ self, (Raised e, self).

Definition bind {A B} (c : M A) (k : A → M B) : M B :=
  λ self,
    match c self with
    | (Returned a, self') => k a self'
    | (Raised e, self') => (Raised e, self')
    end.

Definition get : M ComprehendBackend := λ self, (Returned self, self).

Definition put (self' : ComprehendBackend) : M unit := λ _, (Returned tt, self').

Notation "'let*' x ':=' c 'in' k" := (bind c (λ x, k))
  (at level 10, x name, c at level 100, k at level 200, right associativity).
Notation "c ';;;' k" := (bind c (λ _, k))
  (at level 100, k at level 200, right associativity).

(** [self.recognizers = f(self.recognizers)]. *)
Definition update_recognizers
    (f : gmap string EntityRecognizer → gmap string EntityRecognizer) : M unit :=
  let* self := get in
  put {| region_name := region_name self;
         account_id := account_id self;
         recognizers := f (recognizers self);
         tagger := tagger self |}.

(** A call of a mutating method on [self.tagger]. *)
Definition update_tagger (f : TaggingService.t → TaggingService.t) : M unit :=
  let* self := get in
  put {| region_name := region_name self;
         account_id := account_id self;
         recognizers := recognizers self;
         tagger := f (tagger self) |}.

(** [dict.values()]. *)
Definition values {V} (d : gmap string V) : list V := (map_to_list d).*2.

(** *** The methods *)

Definition list_entity_recognizers (_filter : gmap string pyval)
    : M (list EntityRecognizer) :=
  let* self := get in
  match _filter !! "RecognizerName" with
  | Some wanted =>
      ret (filter (λ entity, str_eq_pyval (name entity) wanted = true)
             (values (recognizers self)))
  | None => ret (values (recognizers self))
  end.

Definition create_entity_recognizer
    (recognizer_name version_name data_access_role_arn : string)
    (tags : list Tag)
    (input_data_config : pyval)
    (language_code volume_kms_key_id : string)
    (vpc_config : gmap string (list string))
    (model_kms_key_id model_policy : string) : M string :=
  let* self := get in
  let recognizer :=
    EntityRecognizer_init (region_name self) (account_id self) language_code
      input_data_config data_access_role_arn version_name recognizer_name
      volume_kms_key_id vpc_config model_kms_key_id model_policy in
  update_recognizers (λ d, <[arn recognizer := recognizer]> d) ;;;
  update_tagger (TaggingService.tag_resource (arn recognizer) tags) ;;;
  ret (arn recognizer).

Definition describe_entity_recognizer (entity_recognizer_arn : string)
    : M EntityRecognizer :=
  let* self := get in
  match recognizers self !! entity_recognizer_arn with
  | None => raise ResourceNotFound
  | Some recognizer => ret recognizer
  end.

Definition stop_training_entity_recognizer (entity_recognizer_arn : string)
    : M unit :=
  let* recognizer := describe_entity_recognizer entity_recognizer_arn in
  if decide (status recognizer = "TRAINING") then
    update_recognizers
      (λ d, <[entity_recognizer_arn := set_status "STOP_REQUESTED" recognizer]> d)
  else ret tt.

Definition list_tags_for_resource (resource_arn : string) : M (list Tag) :=
  let* self := get in
  ret (TaggingService.list_tags_for_resource resource_arn (tagger self)).

Definition delete_entity_recognizer (entity_recognizer_arn : string) : M unit :=
  update_recognizers (λ d, delete entity_recognizer_arn d).

Definition tag_resource (resource_arn : string) (tags : list Tag) : M unit :=
  update_tagger (TaggingService.tag_resource resource_arn tags).

Definition untag_resource (resource_arn : string) (tag_keys : list string)
    : M unit :=
  update_tagger (TaggingService.untag_resource_using_names resource_arn tag_keys).

(** The outcome of a call and the backend it leaves. *)
Definition result_of {A} (c : M A) (self : ComprehendBackend) : outcome A :=
  (c self).1.

Definition backend_after {A} (c : M A) (self : ComprehendBackend)
    : ComprehendBackend :=
  (c self).2.

(** ** Sequences of calls *)

(** One call of a public method of the backend, with its arguments. *)
Inductive call : Type :=
  | CreateEntityRecognizer
      (recognizer_name version_name data_access_role_arn : string)
      (tags : list Tag)
      (input_data_config : pyval)
      (language_code volume_kms_key_id : string)
      (vpc_config : gmap string (list string))
      (model_kms_key_id model_policy : string)
  | DescribeEntityRecognizer (entity_recognizer_arn : string)
  | ListEntityRecognizers (_filter : gmap string pyval)
  | StopTrainingEntityRecognizer (entity_recognizer_arn : string)
  | DeleteEntityRecognizer (entity_recognizer_arn : string)
  | ListTagsForResource (resource_arn : string)
  | TagResource (resource_arn : string) (tags : list Tag)
  | UntagResource (resource_arn : string) (tag_keys : list string).

(** Forget what a call returned or raised. *)
Definition ignore {A} (c : M A) : M unit :=
  λ self, (Returned tt, backend_after c self).

(** The effect of a call on the backend; its result is dropped. *)
Definition perform (c : call) : M unit :=
  match c with
  | CreateEntityRecognizer n v role tgs cfg lang vol vpc mk pol =>
      ignore (create_entity_recognizer n v role tgs cfg lang vol vpc mk pol)
  | DescribeEntityRecognizer a => ignore (describe_entity_recognizer a)
  | ListEntityRecognizers f => ignore (list_entity_recognizers f)
  | StopTrainingEntityRecognizer a => ignore (stop_training_entity_recognizer a)
  | DeleteEntityRecognizer a => ignore (delete_entity_recognizer a)
  | ListTagsForResource a => ignore (list_tags_for_resource a)
  | TagResource a tgs => ignore (tag_resource a tgs)
  | UntagResource a ks => ignore (untag_resource a ks)
  end.

(** The backends a client can bring about: a new backend, then any calls. *)
Inductive reachable : ComprehendBackend → Prop :=
  | reachable_init region account :
      reachable (ComprehendBackend_init region account)
  | reachable_call self c :
      reachable self → reachable (backend_after (perform c) self).

(** Every key of the registry is the [arn] of the recognizer stored under it. *)
Definition keyed_by_arn (self : ComprehendBackend) : Prop :=
  ∀ k r, recognizers self !! k = Some r → arn r = k.

(** A recognizer as [EntityRecognizer.__init__] leaves it when called, as
    [create_entity_recognizer] does, with the region and account of the
    backend: the ARN derived from the name and the version name, and the
    status [TRAINED]. *)
Definition as_constructed (self : ComprehendBackend) (r : EntityRecognizer)
    : Prop :=
  r = EntityRecognizer_init (region_name self) (account_id self)
        (language_code r) (input_data_config r) (data_access_role_arn r)
        (version_name r) (name r) (volume_kms_key_id r) (vpc_config r)
        (model_kms_key_id r) (model_policy r).

(** A string without the character [/]. *)
Fixpoint slash_free (s : string) : bool :=
  match s with
  | EmptyString => true
  | String c s' =>
      negb (bool_decide (String c EmptyString = "/")) && slash_free s'
  end.

(** The names of the keys [to_dict] writes. *)
Definition to_dict_keys : list string :=
  [ "EntityRecognizerArn"; "LanguageCode"; "Status"; "InputDataConfig";
    "DataAccessRoleArn"; "VersionName"; "VolumeKmsKeyId"; "VpcConfig";
    "ModelKmsKeyId"; "ModelPolicy" ].

(** ** Concrete backends and calls used in examples *)

Definition east : ComprehendBackend :=
  ComprehendBackend_init "us-east-1" "123456789012".

Definition rec1_arn : string :=
  "arn:aws:comprehend:us-east-1:123456789012:entity-recognizer/rec1".

Definition env_test : Tag := TaggingService.mkTag "env" "test".
Definition team_nlp : Tag := TaggingService.mkTag "team" "nlp".

Definition create_rec1 (tags : list Tag) : M string :=
  create_entity_recognizer "rec1" EmptyString "role" tags PyNone "en"
    "volume-key" ∅ "model-key" "policy".

(** A recognizer caught in the middle of training, as a test would set it up
    by assigning [status] on a described recognizer. *)
Definition training_rec1 : EntityRecognizer :=
  set_status "TRAINING"
    (EntityRecognizer_init "us-east-1" "123456789012" "en" PyNone "role"
       EmptyString "rec1" "volume-key" ∅ "model-key" "policy").

Definition east_training : ComprehendBackend :=
  {| region_name := "us-east-1";
     account_id := "123456789012";
     recognizers := {[ rec1_arn := training_rec1 ]};
     tagger := TaggingService.init |}.

(** The backend after one creation of [rec1] without tags. *)
Definition east_rec1 : ComprehendBackend :=
  backend_after
    (perform
       (CreateEntityRecognizer "rec1" EmptyString "role" [] PyNone "en"
          "volume-key" ∅ "model-key" "policy"))
    east.

Definition trained_rec1 : EntityRecognizer :=
  EntityRecognizer_init "us-east-1" "123456789012" "en" PyNone "role"
    EmptyString "rec1" "volume-key" ∅ "model-key" "policy".

(** The same recognizer created again, for French and another role. *)
Definition recreate_rec1_fr : call :=
  CreateEntityRecognizer "rec1" EmptyString "role2" [] PyNone "fr"
    "volume-key" ∅ "model-key" "policy".

Definition trained_rec1_fr : EntityRecognizer :=
  EntityRecognizer_init "us-east-1" "123456789012" "fr" PyNone "role2"
    EmptyString "rec1" "volume-key" ∅ "model-key" "policy".

(** The backend after [rec1] was created with the tag [env=test] and then
    deleted. *)
Definition east_rec1_deleted : ComprehendBackend :=
  backend_after
    (create_rec1 [env_test] ;;; delete_entity_recognizer rec1_arn) east.

(** * Properties *)

(** ** Sanity checks on a concrete run *)

Example create_rec1_arn :
  result_of (create_rec1 [env_test]) east = Returned rec1_arn.
Proof. reflexivity. Qed.

Example create_rec1_tags :
  result_of (create_rec1 [env_test] ;;; list_tags_for_resource rec1_arn) east
  = Returned [env_test].
Proof. vm_compute. reflexivity. Qed.

Example delete_then_describe_rec1 :
  result_of (create_rec1 [env_test] ;;; delete_entity_recognizer rec1_arn ;;;
             describe_entity_recognizer rec1_arn) east
  = Raised ResourceNotFound.
Proof. vm_compute. reflexivity. Qed.

(** ** What each method computes *)

Section Equations.
Context (self : ComprehendBackend).

Lemma create_entity_recognizer_eq n v role tgs cfg lang vol vpc mk pol :
  let r := EntityRecognizer_init (region_name self) (account_id self)
             lang cfg role v n vol vpc mk pol in
  create_entity_recognizer n v role tgs cfg lang vol vpc mk pol self
  = (Returned (arn r),
     {| region_name := region_name self;
        account_id := account_id self;
        recognizers := <[arn r := r]> (recognizers self);
        tagger := TaggingService.tag_resource (arn r) tgs (tagger self) |}).
Proof. reflexivity. Qed.

Lemma describe_entity_recognizer_eq a :
  describe_entity_recognizer a self
  = (match recognizers self !! a with
     | Some r => Returned r
     | None => Raised ResourceNotFound
     end, self).
Proof.
  unfold describe_entity_recognizer, bind, get.
  by destruct (recognizers self !! a).
Qed.

Lemma delete_entity_recognizer_eq a :
  delete_entity_recognizer a self
  = (Returned tt,
     {| region_name := region_name self;
        account_id := account_id self;
        recognizers := delete a (recognizers self);
        tagger := tagger self |}).
Proof. reflexivity. Qed.

Lemma stop_training_absent a :
  recognizers self !! a = None →
  stop_training_entity_recognizer a self = (Raised ResourceNotFound, self).
Proof.
  intros Ha. unfold stop_training_entity_recognizer, bind at 1.
  by rewrite describe_entity_recognizer_eq, Ha.
Qed.

Lemma stop_training_present a r :
  recognizers self !! a = Some r →
  stop_training_entity_recognizer a self
  = (Returned tt,
     if decide (status r = "TRAINING") then
       {| region_name := region_name self;
          account_id := account_id self;
          recognizers := <[a := set_status "STOP_REQUESTED" r]> (recognizers self);
          tagger := tagger self |}
     else self).
Proof.
  intros Ha. unfold stop_training_entity_recognizer, bind at 1.
  rewrite describe_entity_recognizer_eq, Ha.
  by destruct (decide (status r = "TRAINING")).
Qed.

Lemma list_tags_for_resource_eq a :
  list_tags_for_resource a self
  = (Returned (TaggingService.list_tags_for_resource a (tagger self)), self).
Proof. reflexivity. Qed.

Lemma tag_resource_eq a tgs :
  tag_resource a tgs self
  = (Returned tt,
     {| region_name := region_name self;
        account_id := account_id self;
        recognizers := recognizers self;
        tagger := TaggingService.tag_resource a tgs (tagger self) |}).
Proof. reflexivity. Qed.

Lemma untag_resource_eq a ks :
  untag_resource a ks self
  = (Returned tt,
     {| region_name := region_name self;
        account_id := account_id self;
        recognizers := recognizers self;
        tagger := TaggingService.untag_resource_using_names a ks (tagger self) |}).
Proof. reflexivity. Qed.

Lemma list_entity_recognizers_eq f :
  list_entity_recognizers f self
  = (Returned
       match f !! "RecognizerName" with
       | Some wanted =>
           filter (λ entity, str_eq_pyval (name entity) wanted = true)
             (values (recognizers self))
       | None => values (recognizers self)
       end, self).
Proof.
  unfold list_entity_recognizers, bind, get.
  by destruct (f !! "RecognizerName").
Qed.

End Equations.

(** A backend whose fields are those of [self] is [self]. *)
Lemma backend_eta self :
  {| region_name := region_name self;
     account_id := account_id self;
     recognizers := recognizers self;
     tagger := tagger self |} = self.
Proof. by destruct self. Qed.

(** ** Creation and description *)

(** C1: describing the ARN that [create_entity_recognizer] returned succeeds,
    and the record described carries the name, language code, input data
    configuration, data access role, version name, volume KMS key, VPC
    configuration, model KMS key and model policy that were passed to the
    creation, with status [TRAINED]. *)
Theorem describe_after_create
    (self : ComprehendBackend)
    (name_in version_in role_in : string)
    (tags_in : list Tag) (config_in : pyval)
    (language_in volume_key_in : string)
    (vpc_in : gmap string (list string))
    (model_key_in policy_in : string) :
  let create :=
    create_entity_recognizer name_in version_in role_in tags_in config_in
      language_in volume_key_in vpc_in model_key_in policy_in in
  ∃ a r,
    result_of create self = Returned a
    ∧ result_of (describe_entity_recognizer a) (backend_after create self)
      = Returned r
    ∧ name r = name_in
    ∧ language_code r = language_in
    ∧ input_data_config r = config_in
    ∧ data_access_role_arn r = role_in
    ∧ version_name r = version_in
    ∧ volume_kms_key_id r = volume_key_in
    ∧ vpc_config r = vpc_in
    ∧ model_kms_key_id r = model_key_in
    ∧ model_policy r = policy_in
    ∧ status r = "TRAINED".
Proof.
  intros create. unfold create, result_of, backend_after.
  rewrite create_entity_recognizer_eq. cbn zeta.
  eexists _, _. split; [reflexivity|].
  rewrite describe_entity_recognizer_eq. cbn [fst snd recognizers].
  rewrite lookup_insert_eq. split; [reflexivity|].
  repeat split.
Qed.

(** ** The ARN of a recognizer *)

Lemma string_app_nil_r (s : string) : s +:+ EmptyString = s.
Proof.
  induction s as [|c s IH]; [done|].
  change (String c (s +:+ EmptyString) = String c s). by rewrite IH.
Qed.

Lemma str_truthy_spec (s : string) : str_truthy s = true ↔ s ≠ EmptyString.
Proof. destruct s; simpl; split; congruence. Qed.

(** [set_status] touches the status and nothing else. *)
Lemma arn_set_status s r : arn (set_status s r) = arn r.
Proof. reflexivity. Qed.

Lemma keyed_by_arn_perform self c :
  keyed_by_arn self → keyed_by_arn (backend_after (perform c) self).
Proof.
  intros Hinv k r'. destruct c; unfold backend_after; cbn [perform ignore snd];
    unfold backend_after.
  - rewrite create_entity_recognizer_eq. cbn [snd recognizers].
    rewrite lookup_insert. case_decide; [naive_solver | apply Hinv].
  - rewrite describe_entity_recognizer_eq. apply Hinv.
  - rewrite list_entity_recognizers_eq. apply Hinv.
  - destruct (recognizers self !! entity_recognizer_arn) as [r|] eqn:Ha.
    + rewrite (stop_training_present _ _ r Ha). cbn [snd].
      case_decide; [|apply Hinv]. cbn [recognizers].
      rewrite lookup_insert. case_decide; [|apply Hinv].
      intros [= <-]. subst k. rewrite arn_set_status. by apply Hinv.
    + rewrite (stop_training_absent _ _ Ha). apply Hinv.
  - rewrite delete_entity_recognizer_eq. cbn [snd recognizers].
    rewrite lookup_delete. case_decide; [done | apply Hinv].
  - apply Hinv.
  - apply Hinv.
  - apply Hinv.
Qed.

Lemma reachable_keyed_by_arn self : reachable self → keyed_by_arn self.
Proof.
  induction 1 as [region account | self c _ IH].
  - intros k r. cbn. by rewrite lookup_empty.
  - by apply keyed_by_arn_perform.
Qed.

(** A call that finds a recognizer under a key before and after it finds the
    same ARN in both. *)
Lemma arn_stable_perform self c k r r' :
  keyed_by_arn self →
  recognizers self !! k = Some r →
  recognizers (backend_after (perform c) self) !! k = Some r' →
  arn r' = arn r.
Proof.
  intros Hinv Hr Hr'.
  rewrite (Hinv _ _ Hr).
  exact (keyed_by_arn_perform self c Hinv _ _ Hr').
Qed.

(** What a call does to an entry of the registry: only a deletion of its key
    takes it away; otherwise the key still holds a recognizer of the same
    ARN, which is the recognizer that was there, with at most its status
    stopped, or the new recognizer a creation for that ARN put in its place. *)
Lemma entry_after_perform self c k r :
  keyed_by_arn self →
  recognizers self !! k = Some r →
  (c = DeleteEntityRecognizer k
   ∧ recognizers (backend_after (perform c) self) !! k = None)
  ∨ (∃ r',
       recognizers (backend_after (perform c) self) !! k = Some r'
       ∧ arn r' = arn r
       ∧ (r' = r
          ∨ r' = set_status "STOP_REQUESTED" r
          ∨ ∃ n v role tgs cfg lang vol vpc mk pol,
              c = CreateEntityRecognizer n v role tgs cfg lang vol vpc mk pol
              ∧ r' = EntityRecognizer_init (region_name self)
                       (account_id self) lang cfg role v n vol vpc mk pol)).
Proof.
  intros Hinv Hr.
  assert (Hsame :
    recognizers self !! k = Some r ∧ arn r = arn r
    ∧ (r = r ∨ r = set_status "STOP_REQUESTED" r
       ∨ ∃ n v role tgs cfg lang vol vpc mk pol,
           c = CreateEntityRecognizer n v role tgs cfg lang vol vpc mk pol
           ∧ r = EntityRecognizer_init (region_name self) (account_id self)
                   lang cfg role v n vol vpc mk pol)) by auto.
  destruct c; unfold backend_after; cbn [perform ignore snd];
    unfold backend_after.
  - right. rewrite create_entity_recognizer_eq. cbn [snd recognizers].
    rewrite lookup_insert. case_decide as Hk; [|by exists r].
    eexists. split; [reflexivity|]. split.
    + rewrite Hk. symmetry. by apply Hinv.
    + right. right. by eexists _, _, _, _, _, _, _, _, _, _.
  - right. rewrite describe_entity_recognizer_eq. by exists r.
  - right. rewrite list_entity_recognizers_eq. by exists r.
  - right. destruct (recognizers self !! entity_recognizer_arn) as [r0|] eqn:Ha.
    + rewrite (stop_training_present _ _ r0 Ha). cbn [snd].
      case_decide; [|by exists r]. cbn [recognizers].
      rewrite lookup_insert. case_decide as Hk; [|by exists r].
      subst k. rewrite Ha in Hr. injection Hr as ->.
      eexists. split; [reflexivity|]. split; [reflexivity|]. by right; left.
    + rewrite (stop_training_absent _ _ Ha). by exists r.
  - rewrite delete_entity_recognizer_eq. cbn [snd recognizers].
    rewrite lookup_delete. case_decide as Hk; [left; by subst | right; by exists r].
  - right. by exists r.
  - right. by exists r.
  - right. by exists r.
Qed.

(** C2: the [arn] of a recognizer built from a region, an account, a name and
    a version name is
    ["arn:aws:comprehend:{region}:{account}:entity-recognizer/{name}"],
    followed by ["/version/{version_name}"] when a (non-empty) version name
    is given; and no call of the backend changes the [arn] of a recognizer
    of the registry.  Whatever recognizer is stored under a key after a call
    has the ARN of the one stored there before; and a recognizer of the
    registry stays where it is, under its key and with its ARN, through
    every call but a deletion of that very key: after the call the key holds
    the same recognizer, with at most its status changed to
    [STOP_REQUESTED], or the new recognizer of the same ARN that a creation
    put in its place. *)
Theorem arn_derived_and_immutable :
  (∀ region account lang cfg role version rname vol vpc mk pol,
     arn (EntityRecognizer_init region account lang cfg role version rname
            vol vpc mk pol)
     = ("arn:aws:comprehend:" +:+ region +:+ ":" +:+ account
          +:+ ":entity-recognizer/" +:+ rname)
       +:+ (if decide (version = EmptyString) then EmptyString
            else "/version/" +:+ version))
  ∧ (∀ self c k r r',
       reachable self →
       recognizers self !! k = Some r →
       recognizers (backend_after (perform c) self) !! k = Some r' →
       arn r' = arn r)
  ∧ (∀ self c k r,
       reachable self →
       recognizers self !! k = Some r →
       (c = DeleteEntityRecognizer k
        ∧ recognizers (backend_after (perform c) self) !! k = None)
       ∨ (∃ r',
            recognizers (backend_after (perform c) self) !! k = Some r'
            ∧ arn r' = arn r
            ∧ (r' = r
               ∨ r' = set_status "STOP_REQUESTED" r
               ∨ ∃ n v role tgs cfg lang vol vpc mk pol,
                   c = CreateEntityRecognizer n v role tgs cfg lang vol vpc
                         mk pol
                   ∧ r' = EntityRecognizer_init (region_name self)
                            (account_id self) lang cfg role v n vol vpc mk
                            pol))).
Proof.
  split; [|split].
  - intros. unfold EntityRecognizer_init. cbn [arn].
    destruct version; simpl str_truthy; case_decide; try done.
    by rewrite string_app_nil_r.
  - intros self c k r r' Hreach. apply arn_stable_perform.
    by apply reachable_keyed_by_arn.
  - intros self c k r Hreach. apply entry_after_perform.
    by apply reachable_keyed_by_arn.
Qed.

Lemma arn_derived_and_immutable_witness :
  reachable east_rec1
  ∧ recognizers east_rec1 !! rec1_arn = Some trained_rec1
  ∧ recognizers (backend_after (perform recreate_rec1_fr) east_rec1)
      !! rec1_arn = Some trained_rec1_fr
  ∧ arn trained_rec1_fr = arn trained_rec1
  ∧ ∃ r',
      recognizers
        (backend_after (perform (StopTrainingEntityRecognizer rec1_arn))
           east_rec1) !! rec1_arn = Some r'
      ∧ arn r' = arn trained_rec1.
Proof.
  assert (Hreach : reachable east_rec1)
    by (apply reachable_call, reachable_init).
  assert (H1 : recognizers east_rec1 !! rec1_arn = Some trained_rec1)
    by (vm_compute; reflexivity).
  assert (H2 : recognizers (backend_after (perform recreate_rec1_fr) east_rec1)
      !! rec1_arn = Some trained_rec1_fr) by (vm_compute; reflexivity).
  refine (conj Hreach (conj H1 (conj H2 (conj _ _)))).
  - exact (proj1 (proj2 arn_derived_and_immutable) east_rec1 recreate_rec1_fr
             rec1_arn trained_rec1 trained_rec1_fr Hreach H1 H2).
  - destruct (proj2 (proj2 arn_derived_and_immutable) east_rec1
                (StopTrainingEntityRecognizer rec1_arn) rec1_arn trained_rec1
                Hreach H1) as [[Hdel _] | (r' & Hr' & Harn & _)].
    + discriminate Hdel.
    + exists r'. by split.
Defined.

(** C9: with the empty string as version name nothing is appended to the ARN,
    which ends with the recognizer name, and the record still carries the
    empty string as its version name. *)
Theorem empty_version_name_not_in_arn
    (self : ComprehendBackend) (rname role : string) (tgs : list Tag)
    (cfg : pyval) (lang vol : string) (vpc : gmap string (list string))
    (mk pol : string) :
  let create :=
    create_entity_recognizer rname EmptyString role tgs cfg lang vol vpc mk pol in
  let a := "arn:aws:comprehend:" +:+ region_name self +:+ ":"
             +:+ account_id self +:+ ":entity-recognizer/" +:+ rname in
  result_of create self = Returned a
  ∧ ∃ r, recognizers (backend_after create self) !! a = Some r
         ∧ arn r = a ∧ version_name r = EmptyString.
Proof.
  intros create a. unfold create, result_of, backend_after.
  rewrite create_entity_recognizer_eq. cbn.
  split; [reflexivity|]. eexists. rewrite lookup_insert_eq. by split.
Qed.

(** ** Lookups that fail *)

(** C3: [describe_entity_recognizer] raises [ResourceNotFound] exactly when
    the ARN is not a key of the registry, [stop_training_entity_recognizer]
    raises it under the same condition, and a call that fails this way leaves
    the backend as it was. *)
Theorem not_found_iff_absent (self : ComprehendBackend) (a : string) :
  (result_of (describe_entity_recognizer a) self = Raised ResourceNotFound
   ↔ a ∉ dom (recognizers self))
  ∧ (result_of (stop_training_entity_recognizer a) self = Raised ResourceNotFound
     ↔ a ∉ dom (recognizers self))
  ∧ (a ∉ dom (recognizers self) →
     backend_after (describe_entity_recognizer a) self = self
     ∧ backend_after (stop_training_entity_recognizer a) self = self).
Proof.
  rewrite not_elem_of_dom. unfold result_of, backend_after.
  rewrite describe_entity_recognizer_eq. cbn [fst snd].
  destruct (recognizers self !! a) as [r|] eqn:Ha.
  - rewrite (stop_training_present _ _ r Ha). cbn [fst]. naive_solver.
  - rewrite (stop_training_absent _ _ Ha). cbn [fst snd]. naive_solver.
Qed.

Lemma not_found_iff_absent_witness :
  (rec1_arn ∉ dom (recognizers east))
  ∧ backend_after (describe_entity_recognizer rec1_arn) east = east
  ∧ backend_after (stop_training_entity_recognizer rec1_arn) east = east.
Proof.
  assert (Habs : rec1_arn ∉ dom (recognizers east))
    by (apply not_elem_of_dom; reflexivity).
  exact (conj Habs (proj2 (proj2 (not_found_iff_absent east rec1_arn)) Habs)).
Defined.

(** ** Stopping a training *)

(** C4: on a recognizer of the registry, [stop_training_entity_recognizer]
    returns without raising; when the status is exactly [TRAINING] the
    recognizer's status becomes [STOP_REQUESTED] (its other fields, the other
    recognizers and the tags stay as they were); for any other status the
    backend is left exactly as it was. *)
Theorem stop_training_effect
    (self : ComprehendBackend) (a : string) (r : EntityRecognizer) :
  recognizers self !! a = Some r →
  let self' := backend_after (stop_training_entity_recognizer a) self in
  result_of (stop_training_entity_recognizer a) self = Returned tt
  ∧ (status r = "TRAINING" →
     (∃ r', recognizers self' !! a = Some r'
            ∧ status r' = "STOP_REQUESTED"
            ∧ name r' = name r ∧ arn r' = arn r
            ∧ language_code r' = language_code r
            ∧ input_data_config r' = input_data_config r
            ∧ data_access_role_arn r' = data_access_role_arn r
            ∧ version_name r' = version_name r
            ∧ volume_kms_key_id r' = volume_kms_key_id r
            ∧ vpc_config r' = vpc_config r
            ∧ model_kms_key_id r' = model_kms_key_id r
            ∧ model_policy r' = model_policy r)
     ∧ (∀ k, k ≠ a → recognizers self' !! k = recognizers self !! k)
     ∧ tagger self' = tagger self
     ∧ region_name self' = region_name self
     ∧ account_id self' = account_id self)
  ∧ (status r ≠ "TRAINING" → self' = self).
Proof.
  intros Ha self'. unfold self', result_of, backend_after.
  rewrite (stop_training_present _ _ r Ha). cbn [fst snd].
  split; [reflexivity|]. split.
  - intros Hst. rewrite decide_True by done. cbn.
    split; [|split; [|done]].
    + exists (set_status "STOP_REQUESTED" r). by rewrite lookup_insert_eq.
    + intros k Hk. by rewrite lookup_insert_ne.
  - intros Hst. by rewrite decide_False.
Qed.

Lemma stop_training_effect_witness :
  recognizers east_training !! rec1_arn = Some training_rec1
  ∧ status training_rec1 = "TRAINING"
  ∧ result_of (stop_training_entity_recognizer rec1_arn) east_training
    = Returned tt
  ∧ ∃ r', recognizers
            (backend_after (stop_training_entity_recognizer rec1_arn)
               east_training) !! rec1_arn = Some r'
          ∧ status r' = "STOP_REQUESTED".
Proof.
  assert (Ha : recognizers east_training !! rec1_arn = Some training_rec1)
    by (vm_compute; reflexivity).
  assert (Hst : status training_rec1 = "TRAINING") by reflexivity.
  destruct (stop_training_effect east_training rec1_arn training_rec1 Ha)
    as (Hres & Htraining & _).
  destruct (Htraining Hst) as ((r' & Hr' & Hstatus & _) & _).
  refine (conj Ha (conj Hst (conj Hres _))).
  exists r'. by split.
Defined.

(** ** Deletion *)

(** C5: [delete_entity_recognizer] never raises, whether the ARN is in the
    registry or not; after it, describing the ARN raises [ResourceNotFound];
    deleting the ARN a second time succeeds as well and changes nothing; and
    deleting an ARN that is not in the registry leaves the backend as it
    was. *)
Theorem delete_then_describe (self : ComprehendBackend) (a : string) :
  let self' := backend_after (delete_entity_recognizer a) self in
  result_of (delete_entity_recognizer a) self = Returned tt
  ∧ result_of (describe_entity_recognizer a) self' = Raised ResourceNotFound
  ∧ result_of (delete_entity_recognizer a) self' = Returned tt
  ∧ backend_after (delete_entity_recognizer a) self' = self'
  ∧ (a ∉ dom (recognizers self) → self' = self).
Proof.
  intros self'. unfold self', result_of, backend_after.
  rewrite !delete_entity_recognizer_eq, describe_entity_recognizer_eq.
  cbn [fst snd recognizers region_name account_id tagger].
  rewrite lookup_delete_eq. repeat split.
  - by rewrite delete_id by apply lookup_delete_eq.
  - intros Habs%not_elem_of_dom. rewrite delete_id by done.
    apply backend_eta.
Qed.

Lemma delete_then_describe_witness :
  ("arn:absent" ∉ dom (recognizers east_rec1))
  ∧ backend_after (delete_entity_recognizer "arn:absent") east_rec1 = east_rec1.
Proof.
  assert (Habs : "arn:absent" ∉ dom (recognizers east_rec1))
    by (apply not_elem_of_dom; vm_compute; reflexivity).
  refine (conj Habs _).
  exact (proj2 (proj2 (proj2 (proj2
           (delete_then_describe east_rec1 "arn:absent")))) Habs).
Defined.

(** C10: [delete_entity_recognizer] leaves the tagging collaborator alone:
    after deleting a recognizer, [list_tags_for_resource] still returns the
    tags it returned before, for the deleted ARN and for every other one. *)
Theorem delete_keeps_tags (self : ComprehendBackend) (a : string) :
  tagger (backend_after (delete_entity_recognizer a) self) = tagger self
  ∧ ∀ a',
      result_of (list_tags_for_resource a')
        (backend_after (delete_entity_recognizer a) self)
      = result_of (list_tags_for_resource a') self.
Proof. split; reflexivity. Qed.

(** ** Listing *)

(** The values of a dict are the records found under some key. *)
Lemma elem_of_values {V} (d : gmap string V) (x : V) :
  x ∈ values d ↔ ∃ k, d !! k = Some x.
Proof.
  unfold values. rewrite list_elem_of_fmap. split.
  - intros ([k y] & -> & Hin). exists k. by apply elem_of_map_to_list.
  - intros (k & Hk). exists (k, x). split; [done|].
    by apply elem_of_map_to_list.
Qed.

Lemma length_values {V} (d : gmap string V) : length (values d) = size d.
Proof. unfold values. by rewrite length_fmap, length_map_to_list. Qed.

Lemma str_eq_pyval_true (s : string) (v : pyval) :
  str_eq_pyval s v = true ↔ v = PyStr s.
Proof.
  destruct v; simpl; try (split; congruence).
  rewrite bool_decide_eq_true. split; congruence.
Qed.

(** C6: [list_entity_recognizers] never raises and changes nothing.  With a
    [RecognizerName] entry in the filter it returns the recognizers of the
    registry whose name equals the entry's value, and only those; without
    one it returns every recognizer of the registry.  No other key of the
    filter matters: two filters that agree on [RecognizerName] give the same
    list. *)
Theorem list_filters_by_name_only
    (self : ComprehendBackend) (_filter : gmap string pyval) :
  ∃ l,
    result_of (list_entity_recognizers _filter) self = Returned l
    ∧ backend_after (list_entity_recognizers _filter) self = self
    ∧ (∀ wanted, _filter !! "RecognizerName" = Some wanted →
         ∀ r, r ∈ l ↔ (∃ k, recognizers self !! k = Some r)
                      ∧ PyStr (name r) = wanted)
    ∧ (_filter !! "RecognizerName" = None →
         (∀ r, r ∈ l ↔ ∃ k, recognizers self !! k = Some r)
         ∧ length l = size (recognizers self))
    ∧ (∀ other : gmap string pyval,
         other !! "RecognizerName" = _filter !! "RecognizerName" →
         result_of (list_entity_recognizers other) self = Returned l).
Proof.
  unfold result_of, backend_after.
  setoid_rewrite list_entity_recognizers_eq. cbn [fst snd].
  eexists. split; [reflexivity|]. split; [reflexivity|].
  split; [|split].
  - intros wanted ->. intros r.
    rewrite list_elem_of_filter, elem_of_values, str_eq_pyval_true.
    split; intros [H1 H2]; split; congruence.
  - intros ->. split; [apply elem_of_values | apply length_values].
  - by intros other ->.
Qed.

Lemma list_filters_by_name_only_witness :
  ({[ "RecognizerName" := PyStr "rec1"; "Status" := PyStr "TRAINING" ]}
     : gmap string pyval) !! "RecognizerName" = Some (PyStr "rec1")
  ∧ result_of
      (list_entity_recognizers
         {[ "RecognizerName" := PyStr "rec1"; "Status" := PyStr "TRAINING" ]})
      east_rec1
    = Returned [trained_rec1]
  ∧ ((∃ k, recognizers east_rec1 !! k = Some trained_rec1)
     ∧ PyStr (name trained_rec1) = PyStr "rec1").
Proof.
  pose (f := ({[ "RecognizerName" := PyStr "rec1";
                 "Status" := PyStr "TRAINING" ]} : gmap string pyval)).
  assert (Hf : f !! "RecognizerName" = Some (PyStr "rec1"))
    by (vm_compute; reflexivity).
  assert (Hres : result_of (list_entity_recognizers f) east_rec1
                 = Returned [trained_rec1]) by (vm_compute; reflexivity).
  refine (conj Hf (conj Hres _)).
  destruct (list_filters_by_name_only east_rec1 f) as (l & Hl & _ & Hname & _).
  rewrite Hres in Hl. injection Hl as <-.
  apply (Hname _ Hf trained_rec1). apply list_elem_of_singleton. reflexivity.
Defined.

(** ** Creating the same ARN twice *)

(** A dict holds one entry per key. *)
Lemma one_entry_per_key {V} (d : gmap string V) (k : string) (x : V) :
  d !! k = Some x →
  length (filter (λ kv, kv.1 = k) (map_to_list d)) = 1.
Proof.
  intros Hk. rewrite <- (insert_delete_id d k x Hk).
  rewrite map_to_list_insert by apply lookup_delete_eq.
  rewrite filter_cons_True by done. cbn [length]. f_equal.
  destruct (filter _ (map_to_list (delete k d))) as [|[k' y] l] eqn:Hfil;
    [done|].
  assert (Hin : (k', y) ∈ filter (λ kv, kv.1 = k) (map_to_list (delete k d)))
    by (rewrite Hfil; apply list_elem_of_here).
  apply list_elem_of_filter in Hin as [Hk' Hin]. cbn in Hk'. subst k'.
  apply elem_of_map_to_list in Hin. by rewrite lookup_delete_eq in Hin.
Qed.

(** C7: when two creations yield the same ARN (as they do with the same name
    and version name on the same backend), the second one does not fail and
    returns that ARN; afterwards describing the ARN returns the recognizer
    built from the inputs of the second creation, and the registry holds one
    entry for the ARN: the second creation added none. *)
Theorem create_twice_overwrites
    (self : ComprehendBackend)
    (n1 v1 role1 : string) (tgs1 : list Tag) (cfg1 : pyval)
    (lang1 vol1 : string) (vpc1 : gmap string (list string)) (mk1 pol1 : string)
    (n2 v2 role2 : string) (tgs2 : list Tag) (cfg2 : pyval)
    (lang2 vol2 : string) (vpc2 : gmap string (list string)) (mk2 pol2 : string) :
  let first :=
    create_entity_recognizer n1 v1 role1 tgs1 cfg1 lang1 vol1 vpc1 mk1 pol1 in
  let second :=
    create_entity_recognizer n2 v2 role2 tgs2 cfg2 lang2 vol2 vpc2 mk2 pol2 in
  let r2 :=
    EntityRecognizer_init (region_name self) (account_id self) lang2 cfg2
      role2 v2 n2 vol2 vpc2 mk2 pol2 in
  let self1 := backend_after first self in
  let self2 := backend_after second self1 in
  result_of first self = result_of second self1 →
  result_of second self1 = Returned (arn r2)
  ∧ result_of (describe_entity_recognizer (arn r2)) self2 = Returned r2
  ∧ recognizers self2 = <[arn r2 := r2]> (recognizers self)
  ∧ size (recognizers self2) = size (recognizers self1)
  ∧ length (filter (λ kv, kv.1 = arn r2) (map_to_list (recognizers self2))) = 1.
Proof.
  intros first second r2 self1 self2.
  pose (r1 := EntityRecognizer_init (region_name self) (account_id self) lang1
                cfg1 role1 v1 n1 vol1 vpc1 mk1 pol1).
  unfold self2, self1, first, second, result_of, backend_after.
  rewrite !create_entity_recognizer_eq.
  cbn [fst snd recognizers region_name account_id]. fold r1 r2.
  intros Hsame. assert (Harn : arn r1 = arn r2) by congruence.
  rewrite Harn.
  split; [reflexivity|].
  rewrite describe_entity_recognizer_eq. cbn [fst snd recognizers].
  rewrite lookup_insert_eq, insert_insert_eq.
  split; [reflexivity|]. split; [reflexivity|]. split.
  - rewrite <- (insert_insert_eq (recognizers self) (arn r2) r2 r1).
    apply map_size_insert_Some. rewrite lookup_insert_eq. eauto.
  - apply (one_entry_per_key _ _ r2), lookup_insert_eq.
Qed.

Lemma create_twice_overwrites_witness :
  result_of (create_rec1 []) east
  = result_of
      (create_entity_recognizer "rec1" EmptyString "role2" [] PyNone "fr"
         "volume-key" ∅ "model-key" "policy")
      (backend_after (create_rec1 []) east)
  ∧ result_of (describe_entity_recognizer rec1_arn)
      (backend_after
         (create_entity_recognizer "rec1" EmptyString "role2" [] PyNone "fr"
            "volume-key" ∅ "model-key" "policy")
         (backend_after (create_rec1 []) east))
    = Returned trained_rec1_fr.
Proof.
  assert (Hsame :
    result_of (create_rec1 []) east
    = result_of
        (create_entity_recognizer "rec1" EmptyString "role2" [] PyNone "fr"
           "volume-key" ∅ "model-key" "policy")
        (backend_after (create_rec1 []) east)) by reflexivity.
  refine (conj Hsame _).
  exact (proj1 (proj2
    (create_twice_overwrites east
       "rec1" EmptyString "role" [] PyNone "en" "volume-key" ∅ "model-key"
       "policy"
       "rec1" EmptyString "role2" [] PyNone "fr" "volume-key" ∅ "model-key"
       "policy" Hsame))).
Defined.

(** ** Tags *)

Section TagSets.
Import TaggingService.

(** A key that is new to a tag set goes to its end. *)
Lemma put_tag_fresh (tg : Tag) (l : list Tag) :
  Key tg ∉ Key <$> l → put_tag tg l = l ++ [tg].
Proof.
  induction l as [|x l IH]; intros Hfresh; [done|].
  rewrite fmap_cons, not_elem_of_cons in Hfresh. destruct Hfresh as [Hx Hl].
  cbn [put_tag]. rewrite decide_False by congruence.
  by rewrite IH.
Qed.

(** Attaching tags with pairwise distinct, new keys appends them. *)
Lemma put_tags_fresh (tgs l : list Tag) :
  NoDup (Key <$> (l ++ tgs)) →
  foldl (λ l tg, put_tag tg l) l tgs = l ++ tgs.
Proof.
  revert l. induction tgs as [|tg tgs IH]; intros l Hnodup.
  - by rewrite app_nil_r.
  - cbn [foldl]. rewrite put_tag_fresh.
    + rewrite IH; rewrite <- app_assoc; done.
    + rewrite fmap_app, fmap_cons in Hnodup.
      apply NoDup_app in Hnodup as (_ & Hdisj & _).
      intros Hin. apply (Hdisj _ Hin). apply list_elem_of_here.
Qed.

(** Dropping keys one after the other keeps the tags of the other keys. *)
Lemma drop_keys_filter (names : list string) (l : list Tag) :
  foldl (λ l k, drop_key k l) l names = filter (λ x, Key x ∉ names) l.
Proof.
  revert l. induction names as [|k names IH]; intros l.
  - cbn [foldl]. symmetry. induction l as [|x l IHl]; [done|].
    rewrite filter_cons_True by apply not_elem_of_nil. by f_equal.
  - cbn [foldl]. rewrite IH. unfold drop_key.
    rewrite list_filter_filter. apply list_filter_iff.
    intros x. rewrite not_elem_of_cons. tauto.
Qed.

Lemma list_tags_after_tag a tgs s :
  list_tags_for_resource a (tag_resource a tgs s)
  = foldl (λ l tg, put_tag tg l) (list_tags_for_resource a s) tgs.
Proof.
  unfold list_tags_for_resource at 1, tag_resource. cbn [tags].
  by rewrite lookup_insert_eq.
Qed.

Lemma list_tags_after_untag a a' names s :
  list_tags_for_resource a' (untag_resource_using_names a names s)
  = if decide (a = a') then
      filter (λ x, Key x ∉ names) (list_tags_for_resource a' s)
    else list_tags_for_resource a' s.
Proof.
  unfold list_tags_for_resource, untag_resource_using_names. cbn [tags].
  rewrite lookup_alter. case_decide as Ha; [subst a'|done].
  destruct (tags s !! a) as [l|]; cbn; [apply drop_keys_filter | done].
Qed.

End TagSets.

(** A key given twice in one tag list is attached once, with the later value. *)
Example duplicate_key_tags_collapse :
  result_of
    (create_rec1 [env_test; TaggingService.mkTag "env" "prod"] ;;;
     list_tags_for_resource rec1_arn) east
  = Returned [TaggingService.mkTag "env" "prod"].
Proof. vm_compute. reflexivity. Qed.

(** C8, as stated, fails: tags are attached to the tag set the ARN already
    has.  A recognizer created with [env=test], deleted, and created again
    with [team=nlp] lists both tags, not the tag list of the second
    creation. *)
Lemma tags_after_recreate_counterexample :
  result_of (create_rec1 [team_nlp]) east_rec1_deleted = Returned rec1_arn
  ∧ result_of (list_tags_for_resource rec1_arn)
      (backend_after (create_rec1 [team_nlp]) east_rec1_deleted)
    = Returned [env_test; team_nlp]
  ∧ result_of (list_tags_for_resource rec1_arn)
      (backend_after (create_rec1 [team_nlp]) east_rec1_deleted)
    ≠ Returned [team_nlp].
Proof.
  assert (Hlist : result_of (list_tags_for_resource rec1_arn)
            (backend_after (create_rec1 [team_nlp]) east_rec1_deleted)
          = Returned [env_test; team_nlp]) by (vm_compute; reflexivity).
  split; [vm_compute; reflexivity|]. split; [exact Hlist|].
  rewrite Hlist. discriminate.
Qed.

(** C8, amended: when the keys of the tag list [T] passed to a creation are
    pairwise distinct and the tagging collaborator holds no tags for the ARN
    the creation returns, [list_tags_for_resource] on that ARN right after
    the creation returns [T]; and for every ARN, [untag_resource] removes
    the tags whose keys are in the given list and keeps the others, changes
    the tags of no other ARN, does not raise and does not consult or change
    the registry of recognizers. *)
Theorem tags_after_create_and_untag :
  (∀ self rname v role (tgs : list Tag) cfg lang vol vpc mk pol,
     let create :=
       create_entity_recognizer rname v role tgs cfg lang vol vpc mk pol in
     let a :=
       arn (EntityRecognizer_init (region_name self) (account_id self) lang
              cfg role v rname vol vpc mk pol) in
     TaggingService.list_tags_for_resource a (tagger self) = [] →
     NoDup (TaggingService.Key <$> tgs) →
     result_of create self = Returned a
     ∧ result_of (list_tags_for_resource a) (backend_after create self)
       = Returned tgs)
  ∧ (∀ self a (tag_keys : list string),
       let self' := backend_after (untag_resource a tag_keys) self in
       result_of (untag_resource a tag_keys) self = Returned tt
       ∧ result_of (list_tags_for_resource a) self'
         = Returned
             (filter (λ tg, TaggingService.Key tg ∉ tag_keys)
                (TaggingService.list_tags_for_resource a (tagger self)))
       ∧ (∀ a', a' ≠ a →
            result_of (list_tags_for_resource a') self'
            = result_of (list_tags_for_resource a') self)
       ∧ recognizers self' = recognizers self).
Proof.
  split.
  - intros self rname v role tgs cfg lang vol vpc mk pol create a Hnone Hnodup.
    unfold create, result_of, backend_after.
    rewrite create_entity_recognizer_eq. cbn [fst snd]. fold a.
    split; [reflexivity|].
    rewrite list_tags_for_resource_eq. cbn [fst tagger].
    rewrite list_tags_after_tag, Hnone. by rewrite put_tags_fresh.
  - intros self a tag_keys self'. unfold self', result_of, backend_after.
    rewrite untag_resource_eq. cbn [fst snd].
    split; [reflexivity|].
    rewrite !list_tags_for_resource_eq. cbn [fst tagger recognizers].
    split; [|split; [|reflexivity]].
    + by rewrite list_tags_after_untag, decide_True.
    + intros a' Ha'. rewrite !list_tags_for_resource_eq. cbn [fst tagger].
      by rewrite list_tags_after_untag, decide_False.
Qed.

Lemma tags_after_create_and_untag_witness :
  TaggingService.list_tags_for_resource rec1_arn (tagger east) = []
  ∧ NoDup (TaggingService.Key <$> [env_test; team_nlp])
  ∧ result_of (create_rec1 [env_test; team_nlp]) east = Returned rec1_arn
  ∧ result_of (list_tags_for_resource rec1_arn)
      (backend_after (create_rec1 [env_test; team_nlp]) east)
    = Returned [env_test; team_nlp].
Proof.
  assert (Hnone :
    TaggingService.list_tags_for_resource rec1_arn (tagger east) = [])
    by reflexivity.
  assert (Hnodup : NoDup (TaggingService.Key <$> [env_test; team_nlp]))
    by (apply (bool_decide_unpack _); vm_compute; exact I).
  refine (conj Hnone (conj Hnodup _)).
  exact (proj1 tags_after_create_and_untag east "rec1" EmptyString "role"
           [env_test; team_nlp] PyNone "en" "volume-key" ∅ "model-key"
           "policy" Hnone Hnodup).
Defined.

(** * Further properties of the code *)

(** ** ARNs as keys: when two creations meet *)

Lemma string_app_assoc (a b c : string) : (a +:+ b) +:+ c = a +:+ (b +:+ c).
Proof.
  induction a as [|x a IH]; [done|].
  change (String x ((a +:+ b) +:+ c) = String x (a +:+ (b +:+ c))).
  by rewrite IH.
Qed.

Lemma string_app_inv_head (s a b : string) : s +:+ a = s +:+ b → a = b.
Proof.
  induction s as [|x s IH]; [done|].
  change (String x (s +:+ a) = String x (s +:+ b) → a = b).
  intros [= H]. by apply IH.
Qed.

(** The ARN, written as one concatenation from left to right. *)
Lemma arn_init_eq region account lang cfg role v n vol vpc mk pol :
  arn (EntityRecognizer_init region account lang cfg role v n vol vpc mk pol)
  = "arn:aws:comprehend:" +:+ region +:+ ":" +:+ account
      +:+ ":entity-recognizer/" +:+ n
      +:+ (if str_truthy v then "/version/" +:+ v else EmptyString).
Proof.
  unfold EntityRecognizer_init. cbn [arn].
  destruct (str_truthy v).
  - by rewrite !string_app_assoc.
  - by rewrite string_app_nil_r.
Qed.

(** Two strings without [/], each followed by nothing or by something that
    starts with [/], are equal when the wholes are. *)
Lemma split_before_slash (n1 n2 s1 s2 : string) :
  slash_free n1 = true → slash_free n2 = true →
  (s1 = EmptyString ∨ ∃ t, s1 = "/" +:+ t) →
  (s2 = EmptyString ∨ ∃ t, s2 = "/" +:+ t) →
  n1 +:+ s1 = n2 +:+ s2 → n1 = n2 ∧ s1 = s2.
Proof.
  revert n2. induction n1 as [|c n1 IH]; intros [|c' n2] Hn1 Hn2 Hs1 Hs2.
  - change (s1 = s2 → EmptyString = EmptyString ∧ s1 = s2). by intros ->.
  - change (s1 = String c' (n2 +:+ s2) → EmptyString = String c' n2 ∧ s1 = s2).
    intros ->. destruct Hs1 as [[=]|[t [= -> _]]]. by cbn in Hn2.
  - change (String c (n1 +:+ s1) = s2 → String c n1 = EmptyString ∧ s1 = s2).
    intros <-. destruct Hs2 as [[=]|[t [= -> _]]]. by cbn in Hn1.
  - change (String c (n1 +:+ s1) = String c' (n2 +:+ s2)
            → String c n1 = String c' n2 ∧ s1 = s2).
    intros [= -> Heq]. cbn in Hn1, Hn2.
    apply andb_prop in Hn1 as [_ Hn1]. apply andb_prop in Hn2 as [_ Hn2].
    destruct (IH n2 Hn1 Hn2 Hs1 Hs2 Heq) as [-> ->]. done.
Qed.

(** X1: the ARN does not tell a version from a name that contains
    [/version/]: a recognizer [n] created with the version name [v] gets the
    ARN of a recognizer created under the name [n/version/v] without a
    version name, so that creating the second replaces the first in the
    registry. *)
Theorem arn_collides_with_versioned_name
    (self : ComprehendBackend) (n v : string)
    (role1 role2 : string) (tgs1 tgs2 : list Tag) (cfg1 cfg2 : pyval)
    (lang1 lang2 vol1 vol2 : string) (vpc1 vpc2 : gmap string (list string))
    (mk1 mk2 pol1 pol2 : string) :
  v ≠ EmptyString →
  let first :=
    create_entity_recognizer n v role1 tgs1 cfg1 lang1 vol1 vpc1 mk1 pol1 in
  let second :=
    create_entity_recognizer (n +:+ "/version/" +:+ v) EmptyString role2 tgs2
      cfg2 lang2 vol2 vpc2 mk2 pol2 in
  let self1 := backend_after first self in
  let self2 := backend_after second self1 in
  result_of second self1 = result_of first self
  ∧ recognizers self2
    = <[arn (EntityRecognizer_init (region_name self) (account_id self) lang1
               cfg1 role1 v n vol1 vpc1 mk1 pol1)
        := EntityRecognizer_init (region_name self) (account_id self) lang2
             cfg2 role2 EmptyString (n +:+ "/version/" +:+ v) vol2 vpc2 mk2
             pol2]> (recognizers self).
Proof.
  intros Hv first second self1 self2.
  assert (Harn :
    arn (EntityRecognizer_init (region_name self) (account_id self) lang2
           cfg2 role2 EmptyString (n +:+ "/version/" +:+ v) vol2 vpc2 mk2 pol2)
    = arn (EntityRecognizer_init (region_name self) (account_id self) lang1
             cfg1 role1 v n vol1 vpc1 mk1 pol1)).
  { rewrite !arn_init_eq. apply str_truthy_spec in Hv. rewrite Hv.
    cbn [str_truthy]. by rewrite string_app_nil_r. }
  unfold self2, self1, first, second, result_of, backend_after.
  rewrite !create_entity_recognizer_eq.
  cbn [fst snd recognizers region_name account_id].
  rewrite Harn. split; [reflexivity|]. apply insert_insert_eq.
Qed.

Lemma arn_collides_with_versioned_name_witness :
  "v2" ≠ EmptyString
  ∧ result_of
      (create_entity_recognizer "rec1/version/v2" EmptyString "role" [] PyNone
         "en" "volume-key" ∅ "model-key" "policy")
      (backend_after
         (create_entity_recognizer "rec1" "v2" "role" [] PyNone "en"
            "volume-key" ∅ "model-key" "policy") east)
    = result_of
        (create_entity_recognizer "rec1" "v2" "role" [] PyNone "en"
           "volume-key" ∅ "model-key" "policy") east.
Proof.
  assert (Hv : "v2" ≠ EmptyString) by discriminate.
  refine (conj Hv _).
  exact (proj1
    (arn_collides_with_versioned_name east "rec1" "v2" "role" "role" [] []
       PyNone PyNone "en" "en" "volume-key" "volume-key" ∅ ∅
       "model-key" "model-key" "policy" "policy" Hv)).
Defined.

(** X2: when the recognizer names contain no [/], two recognizers built for
    the same region and account have the same ARN only if they have the same
    name and the same version name: such creations never overwrite one
    another by accident. *)
Theorem arn_injective_on_slash_free_names
    (region account n1 v1 n2 v2 : string)
    (lang1 lang2 role1 role2 vol1 vol2 mk1 mk2 pol1 pol2 : string)
    (cfg1 cfg2 : pyval) (vpc1 vpc2 : gmap string (list string)) :
  slash_free n1 = true → slash_free n2 = true →
  arn (EntityRecognizer_init region account lang1 cfg1 role1 v1 n1 vol1 vpc1
         mk1 pol1)
  = arn (EntityRecognizer_init region account lang2 cfg2 role2 v2 n2 vol2 vpc2
           mk2 pol2) →
  n1 = n2 ∧ v1 = v2.
Proof.
  intros Hn1 Hn2. rewrite !arn_init_eq. intros Heq.
  do 5 apply string_app_inv_head in Heq.
  apply split_before_slash in Heq as [-> Hsuffix]; [| done | done | |].
  - split; [done|].
    destruct v1 as [|c1 v1], v2 as [|c2 v2]; cbn [str_truthy] in Hsuffix;
      try done.
    by apply (string_app_inv_head "/version/") in Hsuffix.
  - destruct (str_truthy v1); [right|left]; eauto.
  - destruct (str_truthy v2); [right|left]; eauto.
Qed.

Lemma arn_injective_on_slash_free_names_witness :
  slash_free "rec1" = true
  ∧ ("rec1" = "rec1" ∧ "v1" = "v1").
Proof.
  assert (Hn : slash_free "rec1" = true) by reflexivity.
  refine (conj Hn _).
  exact (arn_injective_on_slash_free_names "us-east-1" "123456789012"
           "rec1" "v1" "rec1" "v1" "en" "fr" "role" "role2" "k" "k" "m" "m"
           "p" "p" PyNone PyNone ∅ ∅ Hn Hn eq_refl).
Defined.

(** ** What the registry of a reachable backend looks like *)

(** No call changes the region or the account of the backend. *)
Lemma perform_keeps_partition self c :
  region_name (backend_after (perform c) self) = region_name self
  ∧ account_id (backend_after (perform c) self) = account_id self.
Proof.
  destruct c; unfold backend_after; cbn [perform ignore snd];
    unfold backend_after; try done.
  - by rewrite describe_entity_recognizer_eq.
  - by rewrite list_entity_recognizers_eq.
  - destruct (recognizers self !! entity_recognizer_arn) as [r|] eqn:Ha.
    + rewrite (stop_training_present _ _ r Ha). cbn [snd]. by case_decide.
    + by rewrite (stop_training_absent _ _ Ha).
Qed.

(** A recognizer that is as the constructor left it is not in training. *)
Lemma as_constructed_trained self r : as_constructed self r → status r = "TRAINED".
Proof. intros ->. reflexivity. Qed.

Lemma as_constructed_perform self c :
  (∀ k r, recognizers self !! k = Some r → as_constructed self r) →
  ∀ k r, recognizers (backend_after (perform c) self) !! k = Some r →
         as_constructed (backend_after (perform c) self) r.
Proof.
  intros Hinv k r'. unfold as_constructed.
  destruct (perform_keeps_partition self c) as [-> ->].
  fold (as_constructed self r').
  destruct c; unfold backend_after; cbn [perform ignore snd];
    unfold backend_after; try apply Hinv.
  - rewrite create_entity_recognizer_eq. cbn [snd recognizers].
    rewrite lookup_insert. case_decide; [|apply Hinv]. by intros [= <-].
  - rewrite describe_entity_recognizer_eq. apply Hinv.
  - rewrite list_entity_recognizers_eq. apply Hinv.
  - destruct (recognizers self !! entity_recognizer_arn) as [r|] eqn:Ha.
    + rewrite (stop_training_present _ _ r Ha). cbn [snd].
      rewrite decide_False; [apply Hinv|].
      rewrite (as_constructed_trained self r (Hinv _ _ Ha)). discriminate.
    + rewrite (stop_training_absent _ _ Ha). apply Hinv.
  - rewrite delete_entity_recognizer_eq. cbn [snd recognizers].
    rewrite lookup_delete. case_decide; [done | apply Hinv].
Qed.

Lemma reachable_as_constructed self :
  reachable self →
  ∀ k r, recognizers self !! k = Some r → as_constructed self r.
Proof.
  induction 1 as [region account | self c _ IH].
  - intros k r. cbn. by rewrite lookup_empty.
  - by apply as_constructed_perform.
Qed.

(** X3: on a backend brought about by calls of the methods, a recognizer
    that [describe_entity_recognizer] returns has the ARN that was asked for;
    that ARN is the one derived from the region and account of the backend
    and from the recognizer's own name and version name; and its status is
    [TRAINED]: no sequence of calls makes a recognizer with another status
    observable. *)
Theorem described_recognizer_is_as_constructed
    (self : ComprehendBackend) (a : string) (r : EntityRecognizer) :
  reachable self →
  result_of (describe_entity_recognizer a) self = Returned r →
  arn r = a
  ∧ a = "arn:aws:comprehend:" +:+ region_name self +:+ ":" +:+ account_id self
          +:+ ":entity-recognizer/" +:+ name r
          +:+ (if decide (version_name r = EmptyString) then EmptyString
               else "/version/" +:+ version_name r)
  ∧ status r = "TRAINED".
Proof.
  intros Hreach. unfold result_of.
  rewrite describe_entity_recognizer_eq. cbn [fst].
  destruct (recognizers self !! a) as [r0|] eqn:Ha; [|done].
  intros [= ->].
  pose proof (reachable_keyed_by_arn self Hreach a r Ha) as Harn.
  pose proof (reachable_as_constructed self Hreach a r Ha) as Hcons.
  split; [done|]. split; [|by apply (as_constructed_trained self)].
  rewrite <- Harn. rewrite Hcons at 1. rewrite arn_init_eq.
  by destruct (version_name r).
Qed.

Lemma described_recognizer_is_as_constructed_witness :
  reachable east_rec1
  ∧ result_of (describe_entity_recognizer rec1_arn) east_rec1
    = Returned trained_rec1
  ∧ arn trained_rec1 = rec1_arn.
Proof.
  assert (Hreach : reachable east_rec1)
    by (apply reachable_call, reachable_init).
  assert (Hdesc : result_of (describe_entity_recognizer rec1_arn) east_rec1
                  = Returned trained_rec1) by (vm_compute; reflexivity).
  refine (conj Hreach (conj Hdesc _)).
  exact (proj1 (described_recognizer_is_as_constructed east_rec1 rec1_arn
                  trained_rec1 Hreach Hdesc)).
Defined.

(** X4: on a backend brought about by calls of the methods,
    [stop_training_entity_recognizer] changes nothing, whether it returns or
    raises: no recognizer is ever in status [TRAINING], so the transition to
    [STOP_REQUESTED] is never taken. *)
Theorem stop_training_is_noop_when_reachable
    (self : ComprehendBackend) (a : string) :
  reachable self →
  backend_after (stop_training_entity_recognizer a) self = self.
Proof.
  intros Hreach. unfold backend_after.
  destruct (recognizers self !! a) as [r|] eqn:Ha.
  - rewrite (stop_training_present _ _ r Ha). cbn [snd].
    rewrite decide_False; [done|].
    rewrite (as_constructed_trained self r
               (reachable_as_constructed self Hreach a r Ha)).
    discriminate.
  - by rewrite (stop_training_absent _ _ Ha).
Qed.

Lemma stop_training_is_noop_when_reachable_witness :
  reachable east_rec1
  ∧ backend_after (stop_training_entity_recognizer rec1_arn) east_rec1
    = east_rec1.
Proof.
  assert (Hreach : reachable east_rec1)
    by (apply reachable_call, reachable_init).
  exact (conj Hreach
           (stop_training_is_noop_when_reachable east_rec1 rec1_arn Hreach)).
Defined.

(** X5: stopping a training twice is the same as stopping it once, on every
    backend: the second call returns or raises as the first did and leaves
    the backend the first call left. *)
Theorem stop_training_idempotent (self : ComprehendBackend) (a : string) :
  let self' := backend_after (stop_training_entity_recognizer a) self in
  backend_after (stop_training_entity_recognizer a) self' = self'
  ∧ result_of (stop_training_entity_recognizer a) self'
    = result_of (stop_training_entity_recognizer a) self.
Proof.
  intros self'. unfold self', result_of, backend_after.
  destruct (recognizers self !! a) as [r|] eqn:Ha.
  - rewrite (stop_training_present _ _ r Ha). cbn [fst snd].
    destruct (decide (status r = "TRAINING")) as [Hst|Hst].
    + rewrite (stop_training_present _ _ (set_status "STOP_REQUESTED" r))
        by (cbn [recognizers]; apply lookup_insert_eq).
      cbn [fst snd]. by rewrite decide_False by discriminate.
    + rewrite (stop_training_present _ _ r Ha). cbn [fst snd].
      by rewrite decide_False.
  - rewrite (stop_training_absent _ _ Ha). cbn [fst snd].
    by rewrite (stop_training_absent _ _ Ha).
Qed.

(** ** How the methods compose *)

(** X6: creating a recognizer and then deleting the ARN the creation
    returned leaves the registry as deleting that ARN alone would: the
    registry is back to what it was when the ARN was new, and describing the
    ARN raises in any case. *)
Theorem create_then_delete
    (self : ComprehendBackend) (n v role : string) (tgs : list Tag)
    (cfg : pyval) (lang vol : string) (vpc : gmap string (list string))
    (mk pol : string) :
  let create := create_entity_recognizer n v role tgs cfg lang vol vpc mk pol in
  ∃ a,
    result_of create self = Returned a
    ∧ let self' :=
        backend_after (delete_entity_recognizer a) (backend_after create self)
      in
      recognizers self' = delete a (recognizers self)
      ∧ (a ∉ dom (recognizers self) → recognizers self' = recognizers self)
      ∧ result_of (describe_entity_recognizer a) self'
        = Raised ResourceNotFound.
Proof.
  intros create. unfold create, result_of, backend_after.
  rewrite create_entity_recognizer_eq. cbn [fst snd].
  eexists. split; [reflexivity|]. cbn zeta.
  rewrite delete_entity_recognizer_eq, describe_entity_recognizer_eq.
  cbn [fst snd recognizers]. rewrite delete_insert_eq.
  split; [reflexivity|]. split.
  - intros Habs%not_elem_of_dom. by apply delete_id.
  - by rewrite lookup_delete_eq.
Qed.

Lemma create_then_delete_witness :
  (rec1_arn ∉ dom (recognizers east))
  ∧ recognizers
      (backend_after (delete_entity_recognizer rec1_arn)
         (backend_after (create_rec1 [env_test]) east))
    = recognizers east.
Proof.
  assert (Habs : rec1_arn ∉ dom (recognizers east))
    by (apply not_elem_of_dom; reflexivity).
  refine (conj Habs _).
  destruct (create_then_delete east "rec1" EmptyString "role" [env_test]
              PyNone "en" "volume-key" ∅ "model-key" "policy")
    as (a & Ha & _ & Hnew & _).
  assert (Hcreate : result_of (create_rec1 [env_test]) east = Returned rec1_arn)
    by reflexivity.
  assert (Heq : a = rec1_arn)
    by (unfold create_rec1 in Hcreate; congruence).
  subst a. exact (Hnew Habs).
Defined.

(** X7: a creation, a deletion or a stop of training acts on one ARN only:
    describing any other ARN gives afterwards what it gave before. *)
Theorem other_arns_untouched
    (self : ComprehendBackend) (a' : string)
    (n v role : string) (tgs : list Tag) (cfg : pyval) (lang vol : string)
    (vpc : gmap string (list string)) (mk pol : string) (a : string) :
  let create := create_entity_recognizer n v role tgs cfg lang vol vpc mk pol in
  (result_of create self ≠ Returned a' →
   result_of (describe_entity_recognizer a') (backend_after create self)
   = result_of (describe_entity_recognizer a') self)
  ∧ (a ≠ a' →
     result_of (describe_entity_recognizer a')
       (backend_after (delete_entity_recognizer a) self)
     = result_of (describe_entity_recognizer a') self
     ∧ result_of (describe_entity_recognizer a')
         (backend_after (stop_training_entity_recognizer a) self)
       = result_of (describe_entity_recognizer a') self).
Proof.
  intros create. unfold create, result_of, backend_after. split.
  - rewrite create_entity_recognizer_eq. cbn [fst snd]. intros Hne.
    rewrite !describe_entity_recognizer_eq. cbn [fst recognizers].
    rewrite lookup_insert_ne; [done|]. congruence.
  - intros Hne. split.
    + rewrite delete_entity_recognizer_eq. cbn [snd].
      rewrite !describe_entity_recognizer_eq. cbn [fst recognizers].
      by rewrite lookup_delete_ne.
    + destruct (recognizers self !! a) as [r|] eqn:Ha.
      * rewrite (stop_training_present _ _ r Ha). cbn [snd].
        case_decide; [|done].
        rewrite !describe_entity_recognizer_eq. cbn [fst recognizers].
        by rewrite lookup_insert_ne.
      * by rewrite (stop_training_absent _ _ Ha).
Qed.

Lemma other_arns_untouched_witness :
  "arn:other" ≠ rec1_arn
  ∧ result_of (describe_entity_recognizer rec1_arn)
      (backend_after (delete_entity_recognizer "arn:other") east_rec1)
    = result_of (describe_entity_recognizer rec1_arn) east_rec1.
Proof.
  assert (Hne : "arn:other" ≠ rec1_arn) by discriminate.
  refine (conj Hne _).
  exact (proj1 (proj2
    (other_arns_untouched east_rec1 rec1_arn "rec2" EmptyString "role" []
       PyNone "en" "volume-key" ∅ "model-key" "policy" "arn:other") Hne)).
Defined.

(** X8: tagging and untagging do not look at the registry and do not change
    it: on any ARN, with or without a recognizer, [tag_resource] and
    [untag_resource] return without raising, and afterwards
    [describe_entity_recognizer] and [list_entity_recognizers] give what they
    gave before; in particular tagging an unknown ARN does not make it
    describable. *)
Theorem tagging_ignores_registry
    (self : ComprehendBackend) (a : string) (tgs : list Tag)
    (ks : list string) :
  let tagged := backend_after (tag_resource a tgs) self in
  let untagged := backend_after (untag_resource a ks) self in
  result_of (tag_resource a tgs) self = Returned tt
  ∧ result_of (untag_resource a ks) self = Returned tt
  ∧ (∀ a', result_of (describe_entity_recognizer a') tagged
           = result_of (describe_entity_recognizer a') self
           ∧ result_of (describe_entity_recognizer a') untagged
             = result_of (describe_entity_recognizer a') self)
  ∧ (∀ f, result_of (list_entity_recognizers f) tagged
          = result_of (list_entity_recognizers f) self
          ∧ result_of (list_entity_recognizers f) untagged
            = result_of (list_entity_recognizers f) self)
  ∧ (a ∉ dom (recognizers self) →
     result_of (describe_entity_recognizer a) tagged = Raised ResourceNotFound).
Proof.
  intros tagged untagged. unfold tagged, untagged, result_of, backend_after.
  rewrite tag_resource_eq, untag_resource_eq. cbn [fst snd].
  split; [reflexivity|]. split; [reflexivity|]. split; [|split].
  - intros a'. by rewrite !describe_entity_recognizer_eq.
  - intros f. by rewrite !list_entity_recognizers_eq.
  - intros Habs%not_elem_of_dom.
    rewrite describe_entity_recognizer_eq. cbn [fst recognizers].
    by rewrite Habs.
Qed.

Lemma tagging_ignores_registry_witness :
  (rec1_arn ∉ dom (recognizers east))
  ∧ result_of (describe_entity_recognizer rec1_arn)
      (backend_after (tag_resource rec1_arn [env_test]) east)
    = Raised ResourceNotFound.
Proof.
  assert (Habs : rec1_arn ∉ dom (recognizers east))
    by (apply not_elem_of_dom; reflexivity).
  refine (conj Habs _).
  exact (proj2 (proj2 (proj2 (proj2
    (tagging_ignores_registry east rec1_arn [env_test] []))))
    Habs).
Defined.

(** X9: a new backend is empty: whatever the region and the account,
    describing or stopping any ARN raises [ResourceNotFound], every filter
    lists no recognizer, and deleting any ARN leaves the backend new. *)
Theorem new_backend_is_empty
    (region account a : string) (f : gmap string pyval) :
  let self := ComprehendBackend_init region account in
  result_of (describe_entity_recognizer a) self = Raised ResourceNotFound
  ∧ result_of (stop_training_entity_recognizer a) self
    = Raised ResourceNotFound
  ∧ result_of (list_entity_recognizers f) self = Returned []
  ∧ backend_after (delete_entity_recognizer a) self = self.
Proof.
  intros self. unfold self, result_of, backend_after.
  rewrite describe_entity_recognizer_eq, list_entity_recognizers_eq,
    delete_entity_recognizer_eq.
  rewrite (stop_training_absent _ a) by (cbn; apply lookup_empty).
  cbn [fst snd recognizers ComprehendBackend_init region_name account_id
       tagger].
  rewrite lookup_empty, delete_empty. unfold values.
  rewrite map_to_list_empty. cbn.
  repeat split. by destruct (f !! "RecognizerName").
Qed.

(** ** What a listing shows *)

Lemma NoDup_fmap_filter {A B} (f : A → B) (P : A → Prop)
    `{!∀ x, Decision (P x)} (l : list A) :
  NoDup (f <$> l) → NoDup (f <$> filter P l).
Proof.
  induction l as [|x l IH]; [done|].
  rewrite fmap_cons, NoDup_cons. intros [Hx Hl].
  rewrite filter_cons. case_decide; [|by apply IH].
  rewrite fmap_cons, NoDup_cons. split; [|by apply IH].
  intros (y & Hy & Hin)%list_elem_of_fmap.
  apply list_elem_of_filter in Hin as [_ Hin].
  apply Hx. apply list_elem_of_fmap. eauto.
Qed.

(** On a registry keyed by ARN, the ARNs of the values are the keys. *)
Lemma arn_values_keys self :
  keyed_by_arn self →
  arn <$> values (recognizers self) = (map_to_list (recognizers self)).*1.
Proof.
  intros Hkeyed. unfold values. rewrite <- list_fmap_compose.
  apply Forall_fmap_ext_1, Forall_forall. intros [k r] Hin.
  apply elem_of_map_to_list in Hin. cbn. by apply Hkeyed.
Qed.

(** X10: right after a creation the new recognizer is listed, by a filter
    without [RecognizerName] as well as by a filter asking for its name. *)
Theorem created_recognizer_is_listed
    (self : ComprehendBackend) (f : gmap string pyval)
    (n v role : string) (tgs : list Tag) (cfg : pyval) (lang vol : string)
    (vpc : gmap string (list string)) (mk pol : string) :
  let create := create_entity_recognizer n v role tgs cfg lang vol vpc mk pol in
  f !! "RecognizerName" = None ∨ f !! "RecognizerName" = Some (PyStr n) →
  ∃ l,
    result_of (list_entity_recognizers f) (backend_after create self)
    = Returned l
    ∧ EntityRecognizer_init (region_name self) (account_id self) lang cfg role
        v n vol vpc mk pol ∈ l.
Proof.
  intros create Hf. unfold create, result_of, backend_after.
  rewrite create_entity_recognizer_eq. cbn [snd].
  rewrite list_entity_recognizers_eq. cbn [fst recognizers].
  eexists. split; [reflexivity|].
  destruct Hf as [-> | ->].
  - rewrite elem_of_values. eexists. apply lookup_insert_eq.
  - rewrite list_elem_of_filter, elem_of_values, str_eq_pyval_true.
    split; [reflexivity|]. eexists. apply lookup_insert_eq.
Qed.

Lemma created_recognizer_is_listed_witness :
  (({[ "RecognizerName" := PyStr "rec1" ]} : gmap string pyval)
     !! "RecognizerName" = None
   ∨ ({[ "RecognizerName" := PyStr "rec1" ]} : gmap string pyval)
       !! "RecognizerName" = Some (PyStr "rec1"))
  ∧ ∃ l,
      result_of (list_entity_recognizers {[ "RecognizerName" := PyStr "rec1" ]})
        (backend_after (create_rec1 []) east)
      = Returned l
      ∧ trained_rec1 ∈ l.
Proof.
  assert (Hf :
    ({[ "RecognizerName" := PyStr "rec1" ]} : gmap string pyval)
      !! "RecognizerName" = None
    ∨ ({[ "RecognizerName" := PyStr "rec1" ]} : gmap string pyval)
        !! "RecognizerName" = Some (PyStr "rec1"))
    by (right; reflexivity).
  refine (conj Hf _).
  exact (created_recognizer_is_listed east {[ "RecognizerName" := PyStr "rec1" ]}
           "rec1" EmptyString "role" [] PyNone "en" "volume-key" ∅
           "model-key" "policy" Hf).
Defined.

(** X11: a listing without [RecognizerName] has one recognizer per key of the
    registry: a creation makes it longer by one when the ARN is new and
    leaves its length when the ARN was there; a deletion makes it shorter by
    one when the ARN was there and leaves its length otherwise. *)
Theorem list_length_tracks_registry
    (self : ComprehendBackend) (f : gmap string pyval)
    (n v role : string) (tgs : list Tag) (cfg : pyval) (lang vol : string)
    (vpc : gmap string (list string)) (mk pol : string) (a : string) :
  let create := create_entity_recognizer n v role tgs cfg lang vol vpc mk pol in
  f !! "RecognizerName" = None →
  ∃ l l_created l_deleted created_arn,
    result_of (list_entity_recognizers f) self = Returned l
    ∧ result_of create self = Returned created_arn
    ∧ result_of (list_entity_recognizers f) (backend_after create self)
      = Returned l_created
    ∧ result_of (list_entity_recognizers f)
        (backend_after (delete_entity_recognizer a) self)
      = Returned l_deleted
    ∧ length l = size (recognizers self)
    ∧ length l_created
      = (if decide (created_arn ∈ dom (recognizers self)) then length l
         else S (length l))
    ∧ length l_deleted
      = (if decide (a ∈ dom (recognizers self)) then pred (length l)
         else length l).
Proof.
  intros create Hf. unfold create, result_of, backend_after.
  rewrite create_entity_recognizer_eq, delete_entity_recognizer_eq.
  rewrite !list_entity_recognizers_eq, Hf. cbn [fst snd recognizers].
  eexists _, _, _, _. do 4 (split; [reflexivity|]).
  rewrite !length_values, map_size_insert, map_size_delete.
  split; [reflexivity|]. split.
  - case_decide as Hin; apply elem_of_dom in Hin || apply not_elem_of_dom in Hin.
    + destruct Hin as [r ->]. done.
    + by rewrite Hin.
  - case_decide as Hin; apply elem_of_dom in Hin || apply not_elem_of_dom in Hin.
    + destruct Hin as [r ->]. done.
    + by rewrite Hin.
Qed.

Lemma list_length_tracks_registry_witness :
  (∅ : gmap string pyval) !! "RecognizerName" = None
  ∧ ∃ l l_created,
      result_of (list_entity_recognizers ∅) east = Returned l
      ∧ result_of (list_entity_recognizers ∅)
          (backend_after (create_rec1 []) east) = Returned l_created
      ∧ length l_created = S (length l).
Proof.
  assert (Hf : (∅ : gmap string pyval) !! "RecognizerName" = None)
    by reflexivity.
  refine (conj Hf _).
  destruct (list_length_tracks_registry east ∅ "rec1" EmptyString "role" []
              PyNone "en" "volume-key" ∅ "model-key" "policy" rec1_arn Hf)
    as (l & l1 & _ & a & Hl & Ha & Hl1 & _ & _ & Hlen & _).
  exists l, l1. refine (conj Hl (conj Hl1 _)).
  assert (Hcreate : result_of (create_rec1 []) east = Returned rec1_arn)
    by reflexivity.
  assert (Heq : a = rec1_arn) by (unfold create_rec1 in Hcreate; congruence).
  subst a. rewrite decide_False in Hlen; [exact Hlen|].
  apply not_elem_of_dom. reflexivity.
Defined.

(** X12: a filter whose [RecognizerName] no recognizer bears lists nothing;
    so does one whose [RecognizerName] is not a [str]. *)
Theorem list_by_unmatched_name_is_empty
    (self : ComprehendBackend) (f : gmap string pyval) (wanted : pyval) :
  f !! "RecognizerName" = Some wanted →
  (∀ k r, recognizers self !! k = Some r → PyStr (name r) ≠ wanted) →
  result_of (list_entity_recognizers f) self = Returned [].
Proof.
  intros Hf Hnone. unfold result_of.
  rewrite list_entity_recognizers_eq, Hf. cbn [fst]. f_equal.
  destruct (filter _ (values (recognizers self))) as [|r l] eqn:Hfil; [done|].
  assert (Hin : r ∈ filter (λ entity, str_eq_pyval (name entity) wanted = true)
                       (values (recognizers self)))
    by (rewrite Hfil; apply list_elem_of_here).
  apply list_elem_of_filter in Hin as [Hname Hin].
  apply str_eq_pyval_true in Hname. apply elem_of_values in Hin as [k Hk].
  by destruct (Hnone k r Hk).
Qed.

Lemma list_by_unmatched_name_is_empty_witness :
  ({[ "RecognizerName" := PyInt 1 ]} : gmap string pyval) !! "RecognizerName"
  = Some (PyInt 1)
  ∧ (∀ k r, recognizers east_rec1 !! k = Some r → PyStr (name r) ≠ PyInt 1)
  ∧ result_of (list_entity_recognizers {[ "RecognizerName" := PyInt 1 ]})
      east_rec1
    = Returned [].
Proof.
  assert (Hf : ({[ "RecognizerName" := PyInt 1 ]} : gmap string pyval)
                 !! "RecognizerName" = Some (PyInt 1)) by reflexivity.
  assert (Hnone : ∀ k r, recognizers east_rec1 !! k = Some r
                         → PyStr (name r) ≠ PyInt 1) by discriminate.
  exact (conj Hf (conj Hnone
           (list_by_unmatched_name_is_empty east_rec1 _ _ Hf Hnone))).
Defined.

(** X13: on a backend brought about by calls of the methods, a deletion
    takes the recognizer of that ARN, and nothing else, out of every
    listing: a recognizer is listed after the deletion exactly when it was
    listed before and its ARN is not the deleted one. *)
Theorem deleted_recognizer_leaves_listings
    (self : ComprehendBackend) (a : string) (f : gmap string pyval) :
  reachable self →
  ∃ l l',
    result_of (list_entity_recognizers f) self = Returned l
    ∧ result_of (list_entity_recognizers f)
        (backend_after (delete_entity_recognizer a) self)
      = Returned l'
    ∧ ∀ r, r ∈ l' ↔ r ∈ l ∧ arn r ≠ a.
Proof.
  intros Hkeyed%reachable_keyed_by_arn. unfold result_of, backend_after.
  rewrite delete_entity_recognizer_eq, !list_entity_recognizers_eq.
  cbn [fst snd recognizers]. eexists _, _. do 2 (split; [reflexivity|]).
  assert (Hvalues : ∀ r, r ∈ values (delete a (recognizers self))
                         ↔ r ∈ values (recognizers self) ∧ arn r ≠ a).
  { intros r. rewrite !elem_of_values. split.
    - intros (k & Hk). apply lookup_delete_Some in Hk as [Hne Hk].
      pose proof (Hkeyed _ _ Hk) as Harn. split; [eauto | congruence].
    - intros ((k & Hk) & Hne). exists k. apply lookup_delete_Some.
      pose proof (Hkeyed _ _ Hk) as Harn. split; [congruence | done]. }
  intros r. destruct (f !! "RecognizerName"); [|apply Hvalues].
  rewrite !list_elem_of_filter, Hvalues. tauto.
Qed.

Lemma deleted_recognizer_leaves_listings_witness :
  reachable east_rec1
  ∧ ∃ l l',
      result_of (list_entity_recognizers ∅) east_rec1 = Returned l
      ∧ result_of (list_entity_recognizers ∅)
          (backend_after (delete_entity_recognizer rec1_arn) east_rec1)
        = Returned l'
      ∧ ∀ r, r ∈ l' ↔ r ∈ l ∧ arn r ≠ rec1_arn.
Proof.
  assert (Hreach : reachable east_rec1)
    by (apply reachable_call, reachable_init).
  exact (conj Hreach
           (deleted_recognizer_leaves_listings east_rec1 rec1_arn ∅ Hreach)).
Defined.

(** X14: on a backend brought about by calls of the methods, a listing never
    shows two recognizers with the same ARN, whatever the filter. *)
Theorem listed_arns_are_distinct
    (self : ComprehendBackend) (f : gmap string pyval) :
  reachable self →
  ∃ l,
    result_of (list_entity_recognizers f) self = Returned l
    ∧ NoDup (arn <$> l).
Proof.
  intros Hkeyed%reachable_keyed_by_arn. unfold result_of.
  rewrite list_entity_recognizers_eq. cbn [fst].
  eexists. split; [reflexivity|].
  assert (Hall : NoDup (arn <$> values (recognizers self)))
    by (rewrite arn_values_keys by done; apply NoDup_fst_map_to_list).
  destruct (f !! "RecognizerName"); [|done].
  by apply NoDup_fmap_filter.
Qed.

Lemma listed_arns_are_distinct_witness :
  reachable east_rec1
  ∧ ∃ l,
      result_of (list_entity_recognizers ∅) east_rec1 = Returned l
      ∧ NoDup (arn <$> l).
Proof.
  assert (Hreach : reachable east_rec1)
    by (apply reachable_call, reachable_init).
  exact (conj Hreach (listed_arns_are_distinct east_rec1 ∅ Hreach)).
Defined.

(** ** The dict presented to callers *)

(** X15: [to_dict] writes the ten keys of the response and no other, and it
    leaves the name of the recognizer out: two recognizers give the same dict
    exactly when they agree on every field but the name. *)
Theorem to_dict_forgets_only_the_name (r1 r2 : EntityRecognizer) :
  dom (to_dict r1) = list_to_set to_dict_keys
  ∧ (to_dict r1 = to_dict r2
     ↔ arn r1 = arn r2
       ∧ language_code r1 = language_code r2
       ∧ status r1 = status r2
       ∧ input_data_config r1 = input_data_config r2
       ∧ data_access_role_arn r1 = data_access_role_arn r2
       ∧ version_name r1 = version_name r2
       ∧ volume_kms_key_id r1 = volume_kms_key_id r2
       ∧ vpc_config r1 = vpc_config r2
       ∧ model_kms_key_id r1 = model_kms_key_id r2
       ∧ model_policy r1 = model_policy r2).
Proof.
  split.
  - unfold to_dict, to_dict_keys.
    rewrite !dom_insert_L, dom_singleton_L. cbn. set_solver.
  - split.
    + intros Heq.
      pose proof (f_equal (λ d, d !! "EntityRecognizerArn") Heq) as H1.
      pose proof (f_equal (λ d, d !! "LanguageCode") Heq) as H2.
      pose proof (f_equal (λ d, d !! "Status") Heq) as H3.
      pose proof (f_equal (λ d, d !! "InputDataConfig") Heq) as H4.
      pose proof (f_equal (λ d, d !! "DataAccessRoleArn") Heq) as H5.
      pose proof (f_equal (λ d, d !! "VersionName") Heq) as H6.
      pose proof (f_equal (λ d, d !! "VolumeKmsKeyId") Heq) as H7.
      pose proof (f_equal (λ d, d !! "VpcConfig") Heq) as H8.
      pose proof (f_equal (λ d, d !! "ModelKmsKeyId") Heq) as H9.
      pose proof (f_equal (λ d, d !! "ModelPolicy") Heq) as H10.
      clear Heq.
      change (Some (AnyStr (arn r1)) = Some (AnyStr (arn r2))) in H1.
      change (Some (AnyStr (language_code r1))
              = Some (AnyStr (language_code r2))) in H2.
      change (Some (AnyStr (status r1)) = Some (AnyStr (status r2))) in H3.
      change (Some (AnyData (input_data_config r1))
              = Some (AnyData (input_data_config r2))) in H4.
      change (Some (AnyStr (data_access_role_arn r1))
              = Some (AnyStr (data_access_role_arn r2))) in H5.
      change (Some (AnyStr (version_name r1))
              = Some (AnyStr (version_name r2))) in H6.
      change (Some (AnyStr (volume_kms_key_id r1))
              = Some (AnyStr (volume_kms_key_id r2))) in H7.
      change (Some (AnyVpc (vpc_config r1))
              = Some (AnyVpc (vpc_config r2))) in H8.
      change (Some (AnyStr (model_kms_key_id r1))
              = Some (AnyStr (model_kms_key_id r2))) in H9.
      change (Some (AnyStr (model_policy r1))
              = Some (AnyStr (model_policy r2))) in H10.
      repeat split; congruence.
    + intros (H1 & H2 & H3 & H4 & H5 & H6 & H7 & H8 & H9 & H10).
      unfold to_dict. by rewrite H1, H2, H3, H4, H5, H6, H7, H8, H9, H10.
Qed.

Lemma to_dict_forgets_only_the_name_witness :
  to_dict
    (mkEntityRecognizer "another-name" rec1_arn "en" PyNone "role" EmptyString
       "volume-key" ∅ "model-key" "policy" "TRAINED")
  = to_dict trained_rec1.
Proof.
  apply (proj2 (to_dict_forgets_only_the_name _ trained_rec1)).
  repeat split.
Defined.
